(** * The FRC 2015 communication protocol of LibDS

    A shallow embedding of the 2015 protocol implementation (packet builders,
    packet parsers, request latches and packet counters) together with the
    properties of its wire format.

    Conventions of the embedding:
    - a [uint8_t] is a [Z] in [0, 256); conversions to [uint8_t] are written
      out with [to_uint8];
    - an [int] is a [Z]; the increment of a packet counter wraps as a 32-bit
      two's complement integer ([wrap_int]);
    - a [double] is a rational number ([Q]); conversion of a [double] to an
      integer type truncates toward zero ([trunc]);
    - a datagram buffer is a [list Z], written by index with [<[i:=v]>];
    - the file-level [static] variables and the configuration store are the
      fields of the record [DS], threaded through every operation. *)

From Stdlib Require Import ZArith QArith Qabs List Lia Bool Ascii.
From stdpp Require Import base list strings pretty.
Import ListNotations.

Close Scope Q_scope.
Open Scope Z_scope.

(** ** Machine arithmetic *)

Definition to_uint8 (z : Z) : Z := z mod 256.

Definition wrap_int (z : Z) : Z := (z + 2 ^ 31) mod 2 ^ 32 - 2 ^ 31.

(** Conversion of a [double] to an integer type: the fractional part is
    discarded. *)
Definition trunc (q : Q) : Z := Z.quot (Qnum q) (Zpos (Qden q)).

(** ** Protocol bytes *)

Definition cTest : Z := 0x01.
Definition cEnabled : Z := 0x04.
Definition cAutonomous : Z := 0x02.
Definition cTeleoperated : Z := 0x00.
Definition cFMS_Attached : Z := 0x08.
Definition cEmergencyStop : Z := 0x80.
Definition cFMS_RadioPing : Z := 0x10.
Definition cFMS_RobotPing : Z := 0x08.
Definition cFMS_RobotComms : Z := 0x20.
Definition cFMS_DS_Version : Z := 0x00.
Definition cTagJoystick : Z := 0x0c.
Definition cRed1 : Z := 0x00.
Definition cRed2 : Z := 0x01.
Definition cRed3 : Z := 0x02.
Definition cBlue1 : Z := 0x03.
Definition cBlue2 : Z := 0x04.
Definition cBlue3 : Z := 0x05.
Definition cRTagCANInfo : Z := 0x0e.
Definition cRTagCPUInfo : Z := 0x05.
Definition cRTagRAMInfo : Z := 0x06.
Definition cRTagDiskInfo : Z := 0x04.
Definition cRequestTime : Z := 0x01.
Definition cRobotHasCode : Z := 0x20.

(** ** The configuration store *)

Inductive DS_ControlMode : Type :=
  | DS_CONTROL_TEST
  | DS_CONTROL_AUTONOMOUS
  | DS_CONTROL_TELEOPERATED.

Inductive DS_Alliance : Type :=
  | DS_ALLIANCE_RED
  | DS_ALLIANCE_BLUE.

Inductive DS_Position : Type :=
  | DS_POSITION_1
  | DS_POSITION_2
  | DS_POSITION_3.

(** Modelled from the spec: the configuration store behind the [CFG_Get...]
    and [CFG_Set...] calls (DS_Config.h and its implementation are not among
    the sources).  It is a set of scalar fields, each with a getter and a
    setter; a setter that receives a C truth value stores whether it is
    non-zero. *)
Record Config : Type := mkConfig {
  team_number : Z;
  alliance : DS_Alliance;
  position : DS_Position;
  control_mode : DS_ControlMode;
  robot_enabled : bool;
  emergency_stopped : bool;
  robot_communications : bool;
  radio_communications : bool;
  fms_communications : bool;
  robot_voltage : Q;
  robot_code : bool;
  cpu_usage : Z;
  ram_usage : Z;
  disk_usage : Z;
  can_utilization : Z
}.

Definition truth (z : Z) : bool := negb (z =? 0).

Definition CFG_SetRobotEnabled (c : Config) (v : Z) : Config :=
  mkConfig (team_number c) (alliance c) (position c) (control_mode c)
    (truth v) (emergency_stopped c) (robot_communications c)
    (radio_communications c) (fms_communications c) (robot_voltage c)
    (robot_code c) (cpu_usage c) (ram_usage c) (disk_usage c)
    (can_utilization c).

Definition CFG_SetControlMode (c : Config) (m : DS_ControlMode) : Config :=
  mkConfig (team_number c) (alliance c) (position c) m
    (robot_enabled c) (emergency_stopped c) (robot_communications c)
    (radio_communications c) (fms_communications c) (robot_voltage c)
    (robot_code c) (cpu_usage c) (ram_usage c) (disk_usage c)
    (can_utilization c).

Definition CFG_SetAlliance (c : Config) (a : DS_Alliance) : Config :=
  mkConfig (team_number c) a (position c) (control_mode c)
    (robot_enabled c) (emergency_stopped c) (robot_communications c)
    (radio_communications c) (fms_communications c) (robot_voltage c)
    (robot_code c) (cpu_usage c) (ram_usage c) (disk_usage c)
    (can_utilization c).

Definition CFG_SetPosition (c : Config) (p : DS_Position) : Config :=
  mkConfig (team_number c) (alliance c) p (control_mode c)
    (robot_enabled c) (emergency_stopped c) (robot_communications c)
    (radio_communications c) (fms_communications c) (robot_voltage c)
    (robot_code c) (cpu_usage c) (ram_usage c) (disk_usage c)
    (can_utilization c).

Definition CFG_SetRobotCode (c : Config) (v : Z) : Config :=
  mkConfig (team_number c) (alliance c) (position c) (control_mode c)
    (robot_enabled c) (emergency_stopped c) (robot_communications c)
    (radio_communications c) (fms_communications c) (robot_voltage c)
    (truth v) (cpu_usage c) (ram_usage c) (disk_usage c)
    (can_utilization c).

Definition CFG_SetEmergencyStopped (c : Config) (v : Z) : Config :=
  mkConfig (team_number c) (alliance c) (position c) (control_mode c)
    (robot_enabled c) (truth v) (robot_communications c)
    (radio_communications c) (fms_communications c) (robot_voltage c)
    (robot_code c) (cpu_usage c) (ram_usage c) (disk_usage c)
    (can_utilization c).

Definition CFG_SetRobotVoltage (c : Config) (v : Q) : Config :=
  mkConfig (team_number c) (alliance c) (position c) (control_mode c)
    (robot_enabled c) (emergency_stopped c) (robot_communications c)
    (radio_communications c) (fms_communications c) v
    (robot_code c) (cpu_usage c) (ram_usage c) (disk_usage c)
    (can_utilization c).

Definition CFG_SetRobotCPUUsage (c : Config) (v : Z) : Config :=
  mkConfig (team_number c) (alliance c) (position c) (control_mode c)
    (robot_enabled c) (emergency_stopped c) (robot_communications c)
    (radio_communications c) (fms_communications c) (robot_voltage c)
    (robot_code c) v (ram_usage c) (disk_usage c) (can_utilization c).

Definition CFG_SetRobotRAMUsage (c : Config) (v : Z) : Config :=
  mkConfig (team_number c) (alliance c) (position c) (control_mode c)
    (robot_enabled c) (emergency_stopped c) (robot_communications c)
    (radio_communications c) (fms_communications c) (robot_voltage c)
    (robot_code c) (cpu_usage c) v (disk_usage c) (can_utilization c).

Definition CFG_SetRobotDiskUsage (c : Config) (v : Z) : Config :=
  mkConfig (team_number c) (alliance c) (position c) (control_mode c)
    (robot_enabled c) (emergency_stopped c) (robot_communications c)
    (radio_communications c) (fms_communications c) (robot_voltage c)
    (robot_code c) (cpu_usage c) (ram_usage c) v (can_utilization c).

Definition CFG_SetCANUtilization (c : Config) (v : Z) : Config :=
  mkConfig (team_number c) (alliance c) (position c) (control_mode c)
    (robot_enabled c) (emergency_stopped c) (robot_communications c)
    (radio_communications c) (fms_communications c) (robot_voltage c)
    (robot_code c) (cpu_usage c) (ram_usage c) (disk_usage c) v.

(** ** Protocol state

    The configuration store together with the [static] variables of the
    protocol: the date/time request flag, the two packet counters and the two
    request flags. *)
Record DS : Type := mkDS {
  cfg : Config;
  send_time_data : bool;
  sent_fms_packets : Z;
  sent_robot_packets : Z;
  reboot : bool;
  restart_code : bool
}.

Definition with_cfg (st : DS) (c : Config) : DS :=
  mkDS c (send_time_data st) (sent_fms_packets st) (sent_robot_packets st)
    (reboot st) (restart_code st).

(** The state of a freshly loaded protocol. *)
Definition initial_statics (c : Config) : DS := mkDS c false 0 0 false false.

(** ** Voltage codec *)

(** [upper + lower / 0xff] *)
Definition decode_voltage (upper lower : Z) : Q :=
  (inject_Z upper + inject_Z lower / inject_Z 0xff)%Q.

(** The two output pointers are the addresses of two locals of the caller, so
    the result is returned as the pair (upper, lower).  In
    [(uint8_t) (voltage - (int) voltage) * 100] the cast applies to the
    difference, and the product is then stored in a [uint8_t]. *)
Definition encode_voltage (voltage : Q) : Z * Z :=
  let upper := to_uint8 (trunc voltage) in
  let lower :=
    to_uint8 (to_uint8 (trunc (voltage - inject_Z (trunc voltage))%Q) * 100) in
  (upper, lower).

(** ** Control, request and station codes *)

(** The [switch] on the control mode that both control codes start with. *)
Definition mode_bits (m : DS_ControlMode) : Z :=
  match m with
  | DS_CONTROL_TEST => cTest
  | DS_CONTROL_AUTONOMOUS => cAutonomous
  | DS_CONTROL_TELEOPERATED => cTeleoperated
  end.

Definition or_if (b : bool) (flag code : Z) : Z :=
  if b then Z.lor code flag else code.

Definition fms_control_code (c : Config) : Z :=
  let code := 0 in
  let code := Z.lor code (mode_bits (control_mode c)) in
  let code := or_if (emergency_stopped c) cEmergencyStop code in
  let code := or_if (robot_enabled c) cEnabled code in
  let code := or_if (radio_communications c) cFMS_RadioPing code in
  let code :=
    if robot_communications c
    then Z.lor (Z.lor code cFMS_RobotComms) cFMS_RobotPing
    else code in
  code.

Definition get_control_code (c : Config) : Z :=
  let code := 0 in
  let code := Z.lor code (mode_bits (control_mode c)) in
  let code := or_if (fms_communications c) cFMS_Attached code in
  let code := or_if (emergency_stopped c) cEmergencyStop code in
  let code := or_if (robot_enabled c) cEnabled code in
  code.


(** The three tests on the position cover the enumeration, so the closing
    [return cRed1] is not reached. *)
Definition get_station_code (c : Config) : Z :=
  match position c, alliance c with
  | DS_POSITION_1, DS_ALLIANCE_RED => cRed1
  | DS_POSITION_1, DS_ALLIANCE_BLUE => cBlue1
  | DS_POSITION_2, DS_ALLIANCE_RED => cRed2
  | DS_POSITION_2, DS_ALLIANCE_BLUE => cBlue2
  | DS_POSITION_3, DS_ALLIANCE_RED => cRed3
  | DS_POSITION_3, DS_ALLIANCE_BLUE => cBlue3
  end.

Definition get_alliance (byte : Z) : DS_Alliance :=
  if (byte =? cBlue1) || (byte =? cBlue2) || (byte =? cBlue3)
  then DS_ALLIANCE_BLUE
  else DS_ALLIANCE_RED.

Definition get_position (byte : Z) : DS_Position :=
  if (byte =? cRed1) || (byte =? cBlue1) then DS_POSITION_1
  else if (byte =? cRed2) || (byte =? cBlue2) then DS_POSITION_2
  else if (byte =? cRed3) || (byte =? cBlue3) then DS_POSITION_3
  else DS_POSITION_1.

(** ** Buffers *)

(** [calloc (n, sizeof (uint8_t))]: [n] zero bytes. *)
Definition calloc (n : nat) : list Z := replicate n 0.

(** The big-endian halves of a 16-bit field, as the builders compute them. *)
Definition hi_byte (x : Z) : Z := to_uint8 (Z.shiftr (Z.land x 0xff00) 8).
Definition lo_byte (x : Z) : Z := to_uint8 (Z.land x 0xff).

(** ** FMS packet builder *)

Definition create_fms_packet (st : DS) : list Z * DS :=
  let data := calloc 8 in
  let '(integer, decimal) := encode_voltage (robot_voltage (cfg st)) in
  let data := <[0%nat := hi_byte (sent_fms_packets st)]> data in
  let data := <[1%nat := lo_byte (sent_fms_packets st)]> data in
  let data := <[2%nat := cFMS_DS_Version]> data in
  let data := <[3%nat := fms_control_code (cfg st)]> data in
  let data := <[4%nat := hi_byte (team_number (cfg st))]> data in
  let data := <[5%nat := lo_byte (team_number (cfg st))]> data in
  let data := <[6%nat := integer]> data in
  let data := <[7%nat := decimal]> data in
  (data,
   mkDS (cfg st) (send_time_data st) (wrap_int (sent_fms_packets st + 1))
     (sent_robot_packets st) (reboot st) (restart_code st)).

(** ** Host interfaces *)

(** Modelled from the spec: the joystick enumeration behind the
    [DS_GetJoystick...] calls (DS_Joysticks.h is not among the sources): a
    count, per-joystick numbers of axes, hats and buttons, and the current
    value of each axis, button and hat. *)
Record DS_Joysticks : Type := mkJoysticks {
  DS_GetJoystickCount : nat;
  DS_GetJoystickNumAxes : nat -> nat;
  DS_GetJoystickNumHats : nat -> nat;
  DS_GetJoystickNumButtons : nat -> nat;
  DS_GetJoystickAxis : nat -> nat -> Q;
  DS_GetJoystickButton : nat -> nat -> bool;
  DS_GetJoystickHat : nat -> nat -> Z
}.



(** Modelled from the spec: [DS_SizeOf] (DS_Utils.h is not among the
    sources) gives the length of a payload or string. *)
Definition DS_SizeOf (data : list Z) : Z := Z.of_nat (length data).

(** [sizeof (data)] for [uint8_t* data]: the size of a pointer (LP64). *)
Definition sizeof_ptr : Z := 8.

(** [realloc (data, n)]: the first bytes are kept, the block has [n] bytes.
    The block is taken to be extended in place, so that the pointer held by
    the caller of [add_joystick_data] and [add_timezone_data] still designates
    it; the bytes gained are unspecified in C and are zero here. *)
Definition realloc (data : list Z) (n : nat) : list Z :=
  take n data ++ replicate (n - length data) 0.

(** [for (int i = 0; i < n; ++i) body] *)
Definition for_loop {S : Type} (n : nat) (body : nat -> S -> S) (s : S) : S :=
  fold_left (fun acc i => body i acc) (seq 0 n) s.

(** ** Joystick payload *)

Definition get_joystick_size (js : DS_Joysticks) (joystick : nat) : Z :=
  let header_size := 2 in
  let button_data := 3 in
  let axis_data := Z.of_nat (DS_GetJoystickNumAxes js joystick) + 1 in
  let hat_data := Z.of_nat (DS_GetJoystickNumHats js joystick) * 2 + 1 in
  to_uint8 (header_size + button_data + axis_data + hat_data).

(** [button_flags] is a [uint8_t] accumulator. *)
Definition button_flags (js : DS_Joysticks) (i : nat) : Z :=
  for_loop (DS_GetJoystickNumButtons js i)
    (fun b flags =>
       to_uint8 (flags + (if DS_GetJoystickButton js i b
                          then 2 ^ Z.of_nat b else 0)))
    0.

(** The body of the per-joystick loop of [add_joystick_data]: the state is
    the datagram and the write position [pos]. *)
Definition joystick_block (js : DS_Joysticks) (i : nat)
    (s : list Z * nat) : list Z * nat :=
  let '(data, pos) := s in
  let data := <[pos := get_joystick_size js i]> data in
  let data := <[(pos + 1)%nat := cTagJoystick]> data in
  let pos := (pos + 2)%nat in
  let '(data, pos) :=
    for_loop (DS_GetJoystickNumAxes js i)
      (fun a '(data, pos) =>
         (<[pos := to_uint8 (trunc (DS_GetJoystickAxis js i a * inject_Z 127)%Q)]>
            data,
          S pos))
      (data, pos) in
  let flags := button_flags js i in
  let data :=
    <[(pos + 1)%nat := to_uint8 (Z.of_nat (DS_GetJoystickNumButtons js i))]>
      data in
  let data := <[(pos + 2)%nat := to_uint8 (Z.shiftr (Z.land flags 0xff00) 8)]>
                data in
  let data := <[(pos + 3)%nat := to_uint8 (Z.land flags 0xff)]> data in
  let pos := (pos + 4)%nat in
  let data := <[pos := to_uint8 (Z.of_nat (DS_GetJoystickNumHats js i))]>
                data in
  let '(data, pos) :=
    for_loop (DS_GetJoystickNumHats js i)
      (fun h '(data, pos) =>
         let data := <[(pos + 1)%nat := hi_byte (DS_GetJoystickHat js i h)]>
                       data in
         let data := <[(pos + 2)%nat := lo_byte (DS_GetJoystickHat js i h)]>
                       data in
         (data, (pos + 2)%nat))
      (data, pos) in
  (data, (pos + 1)%nat).

(** The [length] that [add_joystick_data] passes to [realloc]. *)
Definition joystick_data_length (js : DS_Joysticks) : Z :=
  for_loop (DS_GetJoystickCount js)
    (fun i length => length + get_joystick_size js i) 0.

(** Returns the datagram and the final write position.  The datagram comes
    from [calloc] in the one caller, so the guard against a NULL pointer is
    not taken. *)
Definition add_joystick_data_pos (js : DS_Joysticks) (data : list Z)
    (offset : nat) : list Z * nat :=
  let length := joystick_data_length js in
  let data := realloc data (Z.to_nat (sizeof_ptr + length)) in
  for_loop (DS_GetJoystickCount js) (joystick_block js) (data, offset).

Definition add_joystick_data (js : DS_Joysticks) (data : list Z)
    (offset : nat) : list Z :=
  fst (add_joystick_data_pos js data offset).

(** ** Date and timezone payload *)


(** ** Robot packet builder *)



(** ** Packet parsers *)

(** A received datagram is a possibly NULL pointer: [None] is NULL.  The
    parsers index the datagram without looking at its size; a read past the
    end of the payload is outside what C defines and yields 0 here. *)
Definition byte_at (data : list Z) (i : nat) : Z := nth i data 0.

Definition read_extended (c : Config) (data : list Z) (offset : nat)
    : Config :=
  let tag := byte_at data (offset + 1) in
  if tag =? cRTagCANInfo then
    CFG_SetCANUtilization c (byte_at data (offset + 10))
  else if tag =? cRTagCPUInfo then
    CFG_SetRobotCPUUsage c (byte_at data (offset + 3))
  else if tag =? cRTagRAMInfo then
    CFG_SetRobotRAMUsage c (byte_at data (offset + 4))
  else if tag =? cRTagDiskInfo then
    CFG_SetRobotDiskUsage c (byte_at data (offset + 4))
  else c.

Definition read_fms_packet (st : DS) (data : option (list Z)) : Z * DS :=
  match data with
  | None => (0, st)
  | Some data =>
      let control := byte_at data 3 in
      let station := byte_at data 5 in
      let c := CFG_SetRobotEnabled (cfg st) (Z.land control cEnabled) in
      let c :=
        if truth (Z.land control cTeleoperated) then
          CFG_SetControlMode c DS_CONTROL_TELEOPERATED
        else if truth (Z.land control cAutonomous) then
          CFG_SetControlMode c DS_CONTROL_AUTONOMOUS
        else if truth (Z.land control cTest) then
          CFG_SetControlMode c DS_CONTROL_TEST
        else c in
      let c := CFG_SetAlliance c (get_alliance station) in
      let c := CFG_SetPosition c (get_position station) in
      (1, with_cfg st c)
  end.

Definition read_radio_packet (st : DS) (data : option (list Z)) : Z * DS :=
  (0, st).

Definition read_robot_packet (st : DS) (data : option (list Z)) : Z * DS :=
  match data with
  | None => (0, st)
  | Some data =>
      let control := byte_at data 3 in
      let status := byte_at data 4 in
      let request := byte_at data 7 in
      let c := CFG_SetRobotCode (cfg st) (Z.land status cRobotHasCode) in
      let c := CFG_SetEmergencyStopped c (Z.land control cEmergencyStop) in
      let send_time := request =? cRequestTime in
      let upper := byte_at data 5 in
      let lower := byte_at data 6 in
      let c := CFG_SetRobotVoltage c (decode_voltage upper lower) in
      let c := if DS_SizeOf data >? 9 then read_extended c data 8 else c in
      (1,
       mkDS c send_time (sent_fms_packets st) (sent_robot_packets st)
         (reboot st) (restart_code st))
  end.

(** ** Watchdog hooks and requests *)

Definition reset_fms (st : DS) : DS := st.

Definition reset_radio (st : DS) : DS := st.




(** ** Auxiliary notions for the properties *)

(** A step on (datagram, position) that keeps the size of the datagram, never
    moves the position back and stores nothing below the position it starts
    from. *)
Definition writes_above (f : list Z * nat -> list Z * nat) : Prop :=
  forall (d : list Z) (p : nat),
    (p <= snd (f (d, p)))%nat /\
    length (fst (f (d, p))) = length d /\
    forall k : nat, (k < p)%nat -> fst (f (d, p)) !! k = d !! k.

(** Number of bytes by which [joystick_block] advances the write position. *)
Definition block_extent (js : DS_Joysticks) (i : nat) : nat :=
  7 + DS_GetJoystickNumAxes js i + 2 * DS_GetJoystickNumHats js i.

(** Position at which the block of joystick [i] starts. *)
Fixpoint block_start (js : DS_Joysticks) (offset i : nat) : nat :=
  match i with
  | O => offset
  | Datatypes.S j => block_start js offset j + block_extent js j
  end.

Definition axes_loop (js : DS_Joysticks) (i : nat) (s : list Z * nat)
    : list Z * nat :=
  for_loop (DS_GetJoystickNumAxes js i)
    (fun a '(data, pos) =>
       (<[pos := to_uint8 (trunc (DS_GetJoystickAxis js i a * inject_Z 127)%Q)]>
          data,
        S pos))
    s.

Definition hats_loop (js : DS_Joysticks) (i : nat) (s : list Z * nat)
    : list Z * nat :=
  for_loop (DS_GetJoystickNumHats js i)
    (fun h '(data, pos) =>
       let data := <[(pos + 1)%nat := hi_byte (DS_GetJoystickHat js i h)]>
                     data in
       let data := <[(pos + 2)%nat := lo_byte (DS_GetJoystickHat js i h)]>
                     data in
       (data, (pos + 2)%nat))
    s.


(** The round trip through the two voltage bytes. *)
Definition voltage_roundtrip (v : Q) : Q :=
  let '(upper, lower) := encode_voltage v in decode_voltage upper lower.




(** ** Example inputs *)

Definition cfg_golden : Config :=
  mkConfig 4499 DS_ALLIANCE_RED DS_POSITION_1 DS_CONTROL_AUTONOMOUS
    true false true true true (25 # 2)%Q false 0 0 0 0.

Definition cfg_idle : Config :=
  mkConfig 0 DS_ALLIANCE_RED DS_POSITION_1 DS_CONTROL_TELEOPERATED
    false false false false false (0 # 1)%Q false 0 0 0 0.

(** One gamepad: two axes, ten buttons, one hat. *)
Definition js_pad : DS_Joysticks :=
  mkJoysticks 1 (fun _ => 2%nat) (fun _ => 1%nat) (fun _ => 10%nat)
    (fun _ a => (if Nat.eqb a 0 then 1 # 2 else - (1))%Q)
    (fun _ b => Nat.eqb b 1) (fun _ _ => 0x0123).


(** A 5-byte FMS datagram (enabled, autonomous) and a 7-byte robot datagram
    (e-stopped). *)
Definition fms_short : list Z := [0x00; 0x00; 0x00; 0x06; 0x00].
Definition robot_short : list Z := [0x00; 0x00; 0x00; 0x80; 0x00; 0x00; 0x00].

(** ** Further notions for the properties *)

(** A value that a [uint8_t] can hold. *)
Definition is_uint8 (z : Z) : Prop := 0 <= z < 256.

(** The sum of the weights [2 ^ b] of the pressed buttons among the first
    [n] buttons of joystick [i]. *)
Fixpoint button_sum (js : DS_Joysticks) (i n : nat) : Z :=
  match n with
  | O => 0
  | Datatypes.S b =>
      button_sum js i b
      + (if DS_GetJoystickButton js i b then 2 ^ Z.of_nat b else 0)
  end.


(** The bodies of the axis loop and of the hat loop of [add_joystick_data]. *)
Definition axis_byte (js : DS_Joysticks) (i a : nat) : Z :=
  to_uint8 (trunc (DS_GetJoystickAxis js i a * inject_Z 127)%Q).

Definition axes_body (js : DS_Joysticks) (i a : nat) (s : list Z * nat)
    : list Z * nat :=
  let '(data, pos) := s in (<[pos := axis_byte js i a]> data, S pos).

Definition hats_body (js : DS_Joysticks) (i h : nat) (s : list Z * nat)
    : list Z * nat :=
  let '(data, pos) := s in
  let data := <[(pos + 1)%nat := hi_byte (DS_GetJoystickHat js i h)]> data in
  let data := <[(pos + 2)%nat := lo_byte (DS_GetJoystickHat js i h)]> data in
  (data, (pos + 2)%nat).


(** ** The robot address *)

(** [robot_address] formats ["roboRIO-%d.local"] with the team number into a
    block of [robot_address_size] bytes; the decimal form of an [int] is
    [pretty].  The string needs one more byte than its length, for the
    terminator. *)
Definition robot_address_size : nat := 18.

Definition robot_address (c : Config) : string :=
  "roboRIO-" +:+ pretty (team_number c) +:+ ".local".

(** * Properties *)

(** ** Loops *)

Lemma for_loop_S {S : Type} (n : nat) (body : nat -> S -> S) (s : S) :
  for_loop (Datatypes.S n) body s = body n (for_loop n body s).
Proof.
  unfold for_loop. rewrite seq_S, fold_left_app. reflexivity.
Qed.

Lemma for_loop_0 {S : Type} (body : nat -> S -> S) (s : S) :
  for_loop 0 body s = s.
Proof. reflexivity. Qed.

Lemma for_loop_writes_above (n : nat)
    (body : nat -> list Z * nat -> list Z * nat) :
  (forall i, writes_above (body i)) -> writes_above (for_loop n body).
Proof.
  intros Hbody. induction n as [|n IH]; intros d p.
  - rewrite for_loop_0. simpl. repeat split; auto.
  - rewrite for_loop_S.
    destruct (IH d p) as (Hp & Hlen & Hk).
    destruct (for_loop n body (d, p)) as [d1 p1] eqn:E. simpl in *.
    destruct (Hbody n d1 p1) as (Hp' & Hlen' & Hk').
    repeat split.
    + lia.
    + congruence.
    + intros k Hlt. rewrite Hk' by lia. apply Hk, Hlt.
Qed.

(** ** Joystick blocks *)

Lemma axes_loop_writes_above js i : writes_above (axes_loop js i).
Proof.
  apply for_loop_writes_above. intros a d p. simpl. repeat split.
  - lia.
  - apply length_insert.
  - intros k Hk. apply list_lookup_insert_ne. lia.
Qed.

Lemma hats_loop_writes_above js i : writes_above (hats_loop js i).
Proof.
  apply for_loop_writes_above. intros a d p. simpl. repeat split.
  - lia.
  - rewrite !length_insert. reflexivity.
  - intros k Hk. rewrite !list_lookup_insert_ne by lia. reflexivity.
Qed.

Lemma axes_loop_pos js i d p :
  snd (axes_loop js i (d, p)) = (p + DS_GetJoystickNumAxes js i)%nat.
Proof.
  unfold axes_loop. induction (DS_GetJoystickNumAxes js i) as [|n IH].
  - rewrite for_loop_0. simpl. lia.
  - rewrite for_loop_S.
    destruct (for_loop n _ (d, p)) as [d1 p1]. simpl in *. lia.
Qed.

Lemma hats_loop_pos js i d p :
  snd (hats_loop js i (d, p)) = (p + 2 * DS_GetJoystickNumHats js i)%nat.
Proof.
  unfold hats_loop. induction (DS_GetJoystickNumHats js i) as [|n IH].
  - rewrite for_loop_0. simpl. lia.
  - rewrite for_loop_S.
    destruct (for_loop n _ (d, p)) as [d1 p1]. simpl in *. lia.
Qed.

(** [joystick_block] as its three stages. *)
Lemma joystick_block_stages js i d p :
  joystick_block js i (d, p) =
  let d1 := <[(p + 1)%nat := cTagJoystick]> (<[p := get_joystick_size js i]> d) in
  let s2 := axes_loop js i (d1, (p + 2)%nat) in
  let flags := button_flags js i in
  let d3 :=
    <[(snd s2 + 4)%nat := to_uint8 (Z.of_nat (DS_GetJoystickNumHats js i))]>
      (<[(snd s2 + 3)%nat := to_uint8 (Z.land flags 0xff)]>
         (<[(snd s2 + 2)%nat := to_uint8 (Z.shiftr (Z.land flags 0xff00) 8)]>
            (<[(snd s2 + 1)%nat :=
                 to_uint8 (Z.of_nat (DS_GetJoystickNumButtons js i))]>
               (fst s2)))) in
  let s4 := hats_loop js i (d3, (snd s2 + 4)%nat) in
  (fst s4, (snd s4 + 1)%nat).
Proof.
  unfold joystick_block, axes_loop, hats_loop. cbv zeta.
  destruct (for_loop (DS_GetJoystickNumAxes js i) _ _) as [d2 p2]. simpl.
  destruct (for_loop (DS_GetJoystickNumHats js i) _ _) as [d4 p4].
  reflexivity.
Qed.

Lemma joystick_block_pos js i d p :
  snd (joystick_block js i (d, p)) = (p + block_extent js i)%nat.
Proof.
  rewrite joystick_block_stages. cbv zeta. simpl snd.
  rewrite hats_loop_pos, axes_loop_pos. unfold block_extent. lia.
Qed.

Lemma joystick_block_writes_above js i : writes_above (joystick_block js i).
Proof.
  intros d p. rewrite joystick_block_stages. cbv zeta. simpl fst. simpl snd.
  set (d1 := <[(p + 1)%nat := cTagJoystick]> (<[p := get_joystick_size js i]> d)).
  destruct (axes_loop_writes_above js i d1 (p + 2)%nat) as (Hp2 & Hl2 & Hk2).
  set (s2 := axes_loop js i (d1, (p + 2)%nat)) in *.
  match goal with
  | |- context [hats_loop js i (?d3, ?p3)] =>
      destruct (hats_loop_writes_above js i d3 p3) as (Hp4 & Hl4 & Hk4)
  end.
  repeat split.
  - lia.
  - rewrite Hl4, !length_insert, Hl2. unfold d1. rewrite !length_insert.
    reflexivity.
  - intros k Hk. rewrite Hk4 by lia.
    rewrite !list_lookup_insert_ne by lia. rewrite Hk2 by lia.
    unfold d1. rewrite !list_lookup_insert_ne by lia. reflexivity.
Qed.

(** The two leading bytes of a block survive the rest of the block. *)
Lemma joystick_block_lead js i d p :
  (p < length d)%nat ->
  fst (joystick_block js i (d, p)) !! p = Some (get_joystick_size js i).
Proof.
  intros Hin. rewrite joystick_block_stages. cbv zeta. simpl fst.
  set (d1 := <[(p + 1)%nat := cTagJoystick]> (<[p := get_joystick_size js i]> d)).
  destruct (axes_loop_writes_above js i d1 (p + 2)%nat) as (Hp2 & Hl2 & Hk2).
  set (s2 := axes_loop js i (d1, (p + 2)%nat)) in *.
  match goal with
  | |- context [hats_loop js i (?d3, ?p3)] =>
      destruct (hats_loop_writes_above js i d3 p3) as (Hp4 & Hl4 & Hk4)
  end.
  rewrite Hk4 by lia. rewrite !list_lookup_insert_ne by lia.
  rewrite Hk2 by lia. unfold d1. rewrite list_lookup_insert_ne by lia.
  apply list_lookup_insert_eq, Hin.
Qed.


(** ** The joystick payload as a whole *)

Lemma blocks_writes_above js n : writes_above (for_loop n (joystick_block js)).
Proof. apply for_loop_writes_above, joystick_block_writes_above. Qed.

Lemma blocks_pos js n d offset :
  snd (for_loop n (joystick_block js) (d, offset)) = block_start js offset n.
Proof.
  induction n as [|n IH].
  - reflexivity.
  - rewrite for_loop_S.
    destruct (for_loop n (joystick_block js) (d, offset)) as [d1 p1] eqn:E.
    simpl in IH. subst p1. rewrite joystick_block_pos. reflexivity.
Qed.

Lemma block_start_mono js offset i n :
  (i <= n)%nat -> (block_start js offset i <= block_start js offset n)%nat.
Proof.
  induction 1 as [|m Hle IH]; [lia|]. simpl. lia.
Qed.

Lemma block_start_next js offset i n :
  (i < n)%nat ->
  (block_start js offset i + block_extent js i <= block_start js offset n)%nat.
Proof.
  intros Hlt. apply (block_start_mono js offset (Datatypes.S i) n). lia.
Qed.

Lemma block_start_offset js offset n :
  block_start js offset n = (offset + block_start js 0 n)%nat.
Proof. induction n as [|n IH]; simpl; lia. Qed.

(** The leading byte of block [i] is still in place once all [n] blocks are
    written. *)
Lemma blocks_lead js n d offset i :
  (i < n)%nat ->
  (block_start js offset i < length d)%nat ->
  fst (for_loop n (joystick_block js) (d, offset)) !! block_start js offset i
  = Some (get_joystick_size js i).
Proof.
  intros Hi Hin. induction n as [|n IH]; [lia|].
  rewrite for_loop_S.
  pose proof (blocks_pos js n d offset) as Hpos.
  destruct (blocks_writes_above js n d offset) as (_ & Hlen & _).
  destruct (for_loop n (joystick_block js) (d, offset)) as [d1 p1] eqn:E.
  simpl in Hpos, Hlen. subst p1.
  destruct (Nat.eq_dec i n) as [->|Hne].
  - apply joystick_block_lead. lia.
  - destruct (joystick_block_writes_above js n d1 (block_start js offset n))
      as (_ & _ & Hk).
    rewrite Hk.
    + apply IH. lia.
    + pose proof (block_start_next js offset i n). unfold block_extent in *.
      lia.
Qed.

Lemma get_joystick_size_extent js i :
  get_joystick_size js i = Z.of_nat (block_extent js i) mod 256.
Proof.
  unfold get_joystick_size, block_extent, to_uint8. f_equal. lia.
Qed.


(** When every size fits a byte, the [length] passed to [realloc] is the sum
    of the block extents. *)
Lemma joystick_data_length_sum js :
  (forall j, (j < DS_GetJoystickCount js)%nat -> (block_extent js j < 256)%nat) ->
  joystick_data_length js = Z.of_nat (block_start js 0 (DS_GetJoystickCount js)).
Proof.
  unfold joystick_data_length.
  induction (DS_GetJoystickCount js) as [|n IH]; intros Hfit.
  - reflexivity.
  - rewrite for_loop_S, IH by (intros; apply Hfit; lia).
    rewrite get_joystick_size_extent, Z.mod_small.
    + simpl. lia.
    + specialize (Hfit n). lia.
Qed.

Lemma length_realloc d n : length (realloc d n) = n.
Proof.
  unfold realloc. rewrite length_app, length_take, length_replicate. lia.
Qed.




(** ** Bytes of a 16-bit field *)

Lemma lo_byte_mod x : lo_byte x = x mod 256.
Proof.
  unfold lo_byte, to_uint8. change 0xff with (Z.ones 8).
  rewrite Z.land_ones by lia. change (2 ^ 8) with 256.
  apply Z.mod_mod. lia.
Qed.

Lemma hi_byte_mod x : hi_byte x = (x / 256) mod 256.
Proof.
  unfold hi_byte, to_uint8. rewrite Z.shiftr_land.
  change (Z.shiftr 0xff00 8) with (Z.ones 8).
  rewrite Z.land_ones by lia. rewrite Z.shiftr_div_pow2 by lia.
  change (2 ^ 8) with 256. apply Z.mod_mod. lia.
Qed.




(** ** The header of a robot packet *)







(** ** Voltage *)

(** The difference [voltage - (int) voltage] is below 1 in absolute value, so
    its conversion to [uint8_t] is 0 and so is the fractional byte. *)
Lemma encode_voltage_lower_zero (v : Q) : snd (encode_voltage v) = 0.
Proof.
  unfold encode_voltage. simpl snd.
  assert (Hz : trunc (v - inject_Z (trunc v))%Q = 0).
  { destruct v as [n d]. unfold trunc. simpl.
    apply Z.quot_small_iff; [lia|].
    rewrite Pos2Z.inj_mul.
    replace (n * 1 + - (n ÷ Z.pos d) * Z.pos d) with (Z.rem n (Z.pos d)).
    - pose proof (Z.rem_bound_abs n (Z.pos d)). lia.
    - pose proof (Z.quot_rem' n (Z.pos d)). lia. }
  rewrite Hz. reflexivity.
Qed.

(** * The protocol against its specification *)

(** C1: at the voltage 12.5 the encoder produces the bytes (12, 0), the
    decoder maps them to 12, and the round trip is off by 1/2, which is more
    than 1/256. *)
Theorem voltage_roundtrip_at_12_5 :
  encode_voltage (25 # 2) = (12, 0) /\
  (voltage_roundtrip (25 # 2) == inject_Z 12)%Q /\
  (Qabs (voltage_roundtrip (25 # 2) - (25 # 2)) == 1 # 2)%Q /\
  ~ (Qabs (voltage_roundtrip (25 # 2) - (25 # 2)) <= 1 # 256)%Q.
Proof.
  repeat split; try reflexivity.
  intros H. vm_compute in H. apply H. reflexivity.
Qed.

(** C2: with FMS counter 0, team 4499, autonomous, enabled, not e-stopped,
    radio and robot communications up and voltage 12.5, [create_fms_packet]
    returns the bytes 00 00 00 3E 11 93 0C 00, whatever the other fields are:
    the last byte is 0x00, not the 0x80 of the golden packet. *)
Theorem fms_packet_golden_state
    (al : DS_Alliance) (pos : DS_Position) (fms code time rb rc : bool)
    (cpu ram disk can robot_count : Z) :
  let st :=
    mkDS (mkConfig 4499 al pos DS_CONTROL_AUTONOMOUS true false true true fms
            (25 # 2) code cpu ram disk can)
         time 0 robot_count rb rc in
  fst (create_fms_packet st) = [0x00; 0x00; 0x00; 0x3E; 0x11; 0x93; 0x0C; 0x00]
  /\ fst (create_fms_packet st)
     <> [0x00; 0x00; 0x00; 0x3E; 0x11; 0x93; 0x0C; 0x80].
Proof.
  split; [reflexivity | discriminate].
Qed.

(** What [read_fms_packet] does to the control mode, for every datagram: the
    test against [cTeleoperated] (0x00) never succeeds. *)
Lemma read_fms_packet_mode st d :
  control_mode (cfg (snd (read_fms_packet st (Some d)))) =
  if truth (Z.land (byte_at d 3) cAutonomous) then DS_CONTROL_AUTONOMOUS
  else if truth (Z.land (byte_at d 3) cTest) then DS_CONTROL_TEST
  else control_mode (cfg st).
Proof.
  unfold read_fms_packet. simpl.
  unfold cTeleoperated. rewrite Z.land_0_r. simpl.
  destruct (truth (Z.land (byte_at d 3) cAutonomous)); [reflexivity|].
  destruct (truth (Z.land (byte_at d 3) cTest)); reflexivity.
Qed.

(** C3: in autonomous mode, an FMS packet whose control byte has no mode bit
    (here 0x04: enabled, teleoperated) is accepted and leaves the control
    mode autonomous; it does not become teleoperated. *)
Theorem read_fms_packet_teleop_ignored :
  let st := initial_statics cfg_golden in
  let data := [0x00; 0x00; 0x00; 0x04; 0x00; 0x00] in
  Z.land (byte_at data 3) (Z.lor cTest cAutonomous) = 0 /\
  fst (read_fms_packet st (Some data)) = 1 /\
  control_mode (cfg (snd (read_fms_packet st (Some data))))
  = DS_CONTROL_AUTONOMOUS /\
  control_mode (cfg (snd (read_fms_packet st (Some data))))
  <> DS_CONTROL_TELEOPERATED.
Proof.
  repeat split; discriminate.
Qed.

(** C4 (amended): when every joystick size fits a byte, the builder is at
    position 6 + sum over j < i of (7 + A_j + 2 H_j) when it starts the block
    of joystick i, it is 7 + A_i + 2 H_i bytes further when the block is
    finished, and the leading byte of the block in the finished datagram is
    7 + A_i + 2 H_i, the size of the whole block. *)
Theorem joystick_block_layout (js : DS_Joysticks) (data : list Z) (i : nat) :
  (forall j, (j < DS_GetJoystickCount js)%nat ->
     (7 + DS_GetJoystickNumAxes js j + 2 * DS_GetJoystickNumHats js j < 256)%nat) ->
  (i < DS_GetJoystickCount js)%nat ->
  let d0 := realloc data (Z.to_nat (sizeof_ptr + joystick_data_length js)) in
  let start := snd (for_loop i (joystick_block js) (d0, 6%nat)) in
  let d1 := fst (for_loop i (joystick_block js) (d0, 6%nat)) in
  start = block_start js 6 i /\
  snd (joystick_block js i (d1, start))
  = (start + (7 + DS_GetJoystickNumAxes js i
              + 2 * DS_GetJoystickNumHats js i))%nat /\
  add_joystick_data js data 6 !! start
  = Some (Z.of_nat (7 + DS_GetJoystickNumAxes js i
                    + 2 * DS_GetJoystickNumHats js i)).
Proof.
  intros Hfit Hi d0 start d1.
  assert (Hstart : start = block_start js 6 i) by apply blocks_pos.
  split; [exact Hstart|]. split.
  - apply joystick_block_pos.
  - rewrite Hstart. unfold add_joystick_data, add_joystick_data_pos.
    fold d0. rewrite blocks_lead.
    + rewrite get_joystick_size_extent, Z.mod_small; [reflexivity|].
      specialize (Hfit i Hi). unfold block_extent. lia.
    + exact Hi.
    + unfold d0. rewrite length_realloc, joystick_data_length_sum by exact Hfit.
      pose proof (block_start_next js 0 i (DS_GetJoystickCount js) Hi).
      rewrite block_start_offset. unfold sizeof_ptr, block_extent in *. lia.
Qed.

Lemma joystick_block_layout_witness :
  (forall j, (j < DS_GetJoystickCount js_pad)%nat ->
     (7 + DS_GetJoystickNumAxes js_pad j
      + 2 * DS_GetJoystickNumHats js_pad j < 256)%nat) /\
  (0 < DS_GetJoystickCount js_pad)%nat /\
  add_joystick_data js_pad (calloc 8) 6 !! 6%nat = Some 11.
Proof.
  assert (Hfit : forall j, (j < DS_GetJoystickCount js_pad)%nat ->
     (7 + DS_GetJoystickNumAxes js_pad j
      + 2 * DS_GetJoystickNumHats js_pad j < 256)%nat).
  { intros j _. simpl. lia. }
  assert (Hi : (0 < DS_GetJoystickCount js_pad)%nat) by (simpl; lia).
  split; [exact Hfit|]. split; [exact Hi|].
  exact (proj2 (proj2 (joystick_block_layout js_pad (calloc 8) 0 Hfit Hi))).
Defined.

(** C4, as stated, fails for a joystick with two axes and one hat: its block
    occupies 11 bytes, not 6 + 2 + 2 = 10, and the leading byte is 11, which
    is neither the 10 bytes that follow it in the block nor the 9 that would
    follow it in a block of 10. *)
Lemma joystick_block_size_counterexample :
  (snd (add_joystick_data_pos js_pad (calloc 8) 6) - 6)%nat = 11%nat /\
  (snd (add_joystick_data_pos js_pad (calloc 8) 6) - 6)%nat
  <> (6 + DS_GetJoystickNumAxes js_pad 0
      + 2 * DS_GetJoystickNumHats js_pad 0)%nat /\
  fst (add_joystick_data_pos js_pad (calloc 8) 6) !! 6%nat = Some 11 /\
  fst (add_joystick_data_pos js_pad (calloc 8) 6) !! 6%nat
  <> Some (Z.of_nat (snd (add_joystick_data_pos js_pad (calloc 8) 6) - 6 - 1)) /\
  fst (add_joystick_data_pos js_pad (calloc 8) 6) !! 6%nat
  <> Some (Z.of_nat (6 + DS_GetJoystickNumAxes js_pad 0
                     + 2 * DS_GetJoystickNumHats js_pad 0 - 1)).
Proof.
  vm_compute. repeat split; discriminate.
Qed.

(** C5 (amended): the parsers reject exactly the NULL datagram, and then
    leave the whole state as it was; every other datagram, whatever its
    length, is reported as read. *)
Theorem parsers_reject_null_only (st : DS) (data : list Z) :
  read_fms_packet st None = (0, st) /\
  read_robot_packet st None = (0, st) /\
  fst (read_fms_packet st (Some data)) = 1 /\
  fst (read_robot_packet st (Some data)) = 1.
Proof.
  repeat split.
Qed.

(** C5, as stated, fails: a 5-byte FMS datagram and a 7-byte robot datagram
    are both reported as read, and both change the state (the robot becomes
    enabled and autonomous, resp. e-stopped) through bytes that lie inside
    the payload. *)
Lemma short_payload_counterexample :
  (length fms_short < 6)%nat /\
  fst (read_fms_packet (initial_statics cfg_idle) (Some fms_short)) = 1 /\
  robot_enabled (cfg (initial_statics cfg_idle)) = false /\
  robot_enabled
    (cfg (snd (read_fms_packet (initial_statics cfg_idle) (Some fms_short))))
  = true /\
  control_mode
    (cfg (snd (read_fms_packet (initial_statics cfg_idle) (Some fms_short))))
  = DS_CONTROL_AUTONOMOUS /\
  (length robot_short < 8)%nat /\
  fst (read_robot_packet (initial_statics cfg_idle) (Some robot_short)) = 1 /\
  emergency_stopped (cfg (initial_statics cfg_idle)) = false /\
  emergency_stopped
    (cfg (snd (read_robot_packet (initial_statics cfg_idle) (Some robot_short))))
  = true.
Proof.
  vm_compute. repeat split; lia.
Qed.





(** C9: every datagram that [read_robot_packet] reports as read sets the
    date/time latch to whether byte 7 is 0x01, whatever the latch was; a
    datagram with another request byte clears a latch that was set. *)
Theorem read_robot_packet_latch (st : DS) (data : list Z) :
  fst (read_robot_packet st (Some data)) = 1 /\
  send_time_data (snd (read_robot_packet st (Some data)))
  = (byte_at data 7 =? 0x01) /\
  (if byte_at data 7 =? 0x01 then True
   else send_time_data (snd (read_robot_packet st (Some data))) = false).
Proof.
  repeat split. simpl. unfold cRequestTime.
  destruct (byte_at data 7 =? 1); auto.
Qed.

(** C10: [read_fms_packet] leaves the team number, the voltage, the e-stop
    and robot-code flags, the three communication flags, the CPU, RAM, disk
    and CAN figures, the three latches and both counters as they were, for
    every datagram. *)
Theorem read_fms_packet_frame (st : DS) (data : option (list Z)) :
  let st' := snd (read_fms_packet st data) in
  team_number (cfg st') = team_number (cfg st) /\
  robot_voltage (cfg st') = robot_voltage (cfg st) /\
  emergency_stopped (cfg st') = emergency_stopped (cfg st) /\
  robot_code (cfg st') = robot_code (cfg st) /\
  robot_communications (cfg st') = robot_communications (cfg st) /\
  radio_communications (cfg st') = radio_communications (cfg st) /\
  fms_communications (cfg st') = fms_communications (cfg st) /\
  cpu_usage (cfg st') = cpu_usage (cfg st) /\
  ram_usage (cfg st') = ram_usage (cfg st) /\
  disk_usage (cfg st') = disk_usage (cfg st) /\
  can_utilization (cfg st') = can_utilization (cfg st) /\
  send_time_data st' = send_time_data st /\
  reboot st' = reboot st /\
  restart_code st' = restart_code st /\
  sent_fms_packets st' = sent_fms_packets st /\
  sent_robot_packets st' = sent_robot_packets st.
Proof.
  destruct data as [d|]; [|repeat split].
  unfold read_fms_packet. cbv zeta. simpl snd.
  destruct (truth (Z.land (byte_at d 3) cTeleoperated));
    [|destruct (truth (Z.land (byte_at d 3) cAutonomous));
      [|destruct (truth (Z.land (byte_at d 3) cTest))]];
    repeat split.
Qed.

(** * Further properties of the protocol *)

(** ** Station, control and request codes *)

(** X1: the station code is one of 0..5 and decodes back to the alliance and
    the position it was built from. *)
Theorem station_code_roundtrip (c : Config) :
  0 <= get_station_code c <= 5 /\
  get_alliance (get_station_code c) = alliance c /\
  get_position (get_station_code c) = position c.
Proof.
  unfold get_station_code.
  destruct (position c), (alliance c); vm_compute;
    (split; [split; discriminate | split; reflexivity]).
Qed.



(** X3: the FMS control code is a byte whose two low bits are those of the
    control mode, whose bit 2 is the enabled flag, bits 3 and 5 the robot
    communications flag, bit 4 the radio flag and bit 7 the e-stop flag; bit
    6 is never set. *)
Theorem fms_control_code_bits (c : Config) :
  0 <= fms_control_code c < 256 /\
  Z.land (fms_control_code c) 0x03 = mode_bits (control_mode c) /\
  Z.testbit (fms_control_code c) 2 = robot_enabled c /\
  Z.testbit (fms_control_code c) 3 = robot_communications c /\
  Z.testbit (fms_control_code c) 4 = radio_communications c /\
  Z.testbit (fms_control_code c) 5 = robot_communications c /\
  Z.testbit (fms_control_code c) 6 = false /\
  Z.testbit (fms_control_code c) 7 = emergency_stopped c.
Proof.
  unfold fms_control_code, or_if.
  destruct (control_mode c), (emergency_stopped c), (robot_enabled c),
    (radio_communications c), (robot_communications c);
    vm_compute; (split; [split; [discriminate | reflexivity] |]);
    repeat split.
Qed.

(** X4: the robot control code is a byte whose two low bits are those of the
    control mode, whose bit 2 is the enabled flag, bit 3 the FMS
    communications flag and bit 7 the e-stop flag; bits 4 to 6 are never
    set. *)
Theorem get_control_code_bits (c : Config) :
  0 <= get_control_code c < 256 /\
  Z.land (get_control_code c) 0x03 = mode_bits (control_mode c) /\
  Z.testbit (get_control_code c) 2 = robot_enabled c /\
  Z.testbit (get_control_code c) 3 = fms_communications c /\
  Z.testbit (get_control_code c) 4 = false /\
  Z.testbit (get_control_code c) 5 = false /\
  Z.testbit (get_control_code c) 6 = false /\
  Z.testbit (get_control_code c) 7 = emergency_stopped c.
Proof.
  unfold get_control_code, or_if.
  destruct (control_mode c), (emergency_stopped c), (robot_enabled c),
    (fms_communications c);
    vm_compute; (split; [split; [discriminate | reflexivity] |]);
    repeat split.
Qed.

(** ** Runs of the builders *)









(** ** Bytes of the datagrams *)

Lemma to_uint8_is (z : Z) : is_uint8 (to_uint8 z).
Proof. unfold is_uint8, to_uint8. apply Z.mod_pos_bound. lia. Qed.







Lemma is_uint8_const (z : Z) : (0 <=? z) && (z <? 256) = true -> is_uint8 z.
Proof. unfold is_uint8. lia. Qed.

Lemma for_loop_invariant {S : Type} (P : S -> Prop) (n : nat)
    (body : nat -> S -> S) (s : S) :
  (forall i s', P s' -> P (body i s')) -> P s -> P (for_loop n body s).
Proof.
  intros Hbody Hs. induction n as [|n IH].
  - exact Hs.
  - rewrite for_loop_S. apply Hbody, IH.
Qed.






(** ** Voltage bytes *)

Lemma trunc_nonneg (n : Z) (d : positive) :
  0 <= n -> trunc (n # d) = n / Z.pos d.
Proof.
  intros Hn. unfold trunc. simpl. apply Z.quot_div_nonneg; lia.
Qed.

Lemma decode_voltage_frac (upper lower : Z) :
  decode_voltage upper lower = (upper * 255 + lower # 255)%Q.
Proof.
  unfold decode_voltage, Qdiv, Qinv, Qmult, Qplus, inject_Z. simpl.
  f_equal. lia.
Qed.

(** Decoding two bytes and encoding the result. *)
Lemma encode_decode_voltage (upper lower : Z) :
  is_uint8 upper -> is_uint8 lower ->
  encode_voltage (decode_voltage upper lower)
  = (if lower =? 255 then (upper + 1) mod 256 else upper, 0).
Proof.
  unfold is_uint8. intros Hu Hl.
  pose proof (encode_voltage_lower_zero (decode_voltage upper lower)) as Hlow.
  unfold encode_voltage in *. cbv zeta in *. simpl snd in Hlow.
  rewrite Hlow. f_equal.
  rewrite decode_voltage_frac, trunc_nonneg by lia.
  unfold to_uint8.
  destruct (Z.eqb_spec lower 255) as [->|Hne].
  - f_equal. rewrite Z.div_add_l by lia. reflexivity.
  - rewrite Z.div_add_l by lia. rewrite (Z.div_small lower 255) by lia.
    rewrite Z.add_0_r. apply Z.mod_small. lia.
Qed.

Lemma read_robot_packet_voltage (st : DS) (data : list Z) :
  robot_voltage (cfg (snd (read_robot_packet st (Some data))))
  = decode_voltage (byte_at data 5) (byte_at data 6).
Proof.
  unfold read_robot_packet. cbv zeta. simpl snd. simpl cfg.
  destruct (DS_SizeOf data >? 9); [|reflexivity].
  unfold read_extended. cbv zeta.
  repeat match goal with
         | |- context [if ?b then _ else _] => destruct b
         end; reflexivity.
Qed.

(** X8: the voltage bytes (upper, lower) of a robot datagram reach the FMS
    as (upper, 0), or as (upper + 1 modulo 256, 0) when lower is 255: the
    FMS datagram built after a robot datagram never carries a fractional
    voltage byte. *)
Theorem voltage_relayed (st : DS) (data : list Z) :
  is_uint8 (byte_at data 5) -> is_uint8 (byte_at data 6) ->
  byte_at (fst (create_fms_packet (snd (read_robot_packet st (Some data))))) 6
  = (if byte_at data 6 =? 255 then (byte_at data 5 + 1) mod 256
     else byte_at data 5) /\
  byte_at (fst (create_fms_packet (snd (read_robot_packet st (Some data))))) 7
  = 0.
Proof.
  intros Hu Hl.
  pose proof (encode_decode_voltage _ _ Hu Hl) as Henc.
  rewrite <- read_robot_packet_voltage with (st := st) in Henc.
  unfold create_fms_packet.
  destruct (encode_voltage _) as [integer decimal].
  injection Henc as -> ->. split; reflexivity.
Qed.

Lemma voltage_relayed_witness :
  is_uint8 (byte_at [0; 0; 0; 0; 0; 12; 128; 0] 5) /\
  is_uint8 (byte_at [0; 0; 0; 0; 0; 12; 128; 0] 6) /\
  byte_at (fst (create_fms_packet
                  (snd (read_robot_packet (initial_statics cfg_idle)
                          (Some [0; 0; 0; 0; 0; 12; 128; 0]))))) 7 = 0.
Proof.
  assert (H5 : is_uint8 (byte_at [0; 0; 0; 0; 0; 12; 128; 0] 5))
    by (unfold is_uint8, byte_at; simpl; lia).
  assert (H6 : is_uint8 (byte_at [0; 0; 0; 0; 0; 12; 128; 0] 6))
    by (unfold is_uint8, byte_at; simpl; lia).
  split; [exact H5|]. split; [exact H6|].
  exact (proj2 (voltage_relayed (initial_statics cfg_idle)
                  [0; 0; 0; 0; 0; 12; 128; 0] H5 H6)).
Defined.

(** ** What the parsers store *)

(** The C test [x & (1 << n)] is the test of bit [n]. *)
Lemma truth_land_bit (x n : Z) :
  0 <= n -> truth (Z.land x (2 ^ n)) = Z.testbit x n.
Proof.
  intros Hn. unfold truth.
  destruct (Z.testbit x n) eqn:Hb.
  - apply negb_true_iff, Z.eqb_neq. intros H0.
    assert (Hbit : Z.testbit (Z.land x (2 ^ n)) n = true).
    { rewrite Z.land_spec, Hb, Z.pow2_bits_true by lia. reflexivity. }
    rewrite H0, Z.bits_0 in Hbit. discriminate.
  - apply negb_false_iff, Z.eqb_eq. apply Z.bits_inj'. intros m Hm.
    rewrite Z.land_spec, Z.bits_0, Z.pow2_bits_eqb by lia.
    destruct (Z.eqb_spec n m) as [->|Hne].
    + rewrite Hb. reflexivity.
    + apply andb_false_r.
Qed.

(** X9: a robot datagram of at most 9 bytes leaves the CPU, RAM, disk and
    CAN figures as they were; a longer one sets the one figure that the tag
    in byte 9 selects (0x05: CPU from byte 11, 0x06: RAM from byte 12, 0x04:
    disk from byte 12, 0x0e: CAN from byte 18) and leaves the other three,
    and all four for any other tag. *)
Theorem read_robot_packet_telemetry (st : DS) (data : list Z) :
  let st' := snd (read_robot_packet st (Some data)) in
  let extended := (9 <? length data)%nat in
  let tag := byte_at data 9 in
  cpu_usage (cfg st')
  = (if extended && (tag =? 0x05) then byte_at data 11
     else cpu_usage (cfg st)) /\
  ram_usage (cfg st')
  = (if extended && (tag =? 0x06) then byte_at data 12
     else ram_usage (cfg st)) /\
  disk_usage (cfg st')
  = (if extended && (tag =? 0x04) then byte_at data 12
     else disk_usage (cfg st)) /\
  can_utilization (cfg st')
  = (if extended && (tag =? 0x0e) then byte_at data 18
     else can_utilization (cfg st)).
Proof.
  unfold read_robot_packet. cbv zeta. simpl snd.
  unfold DS_SizeOf. rewrite Z.gtb_ltb.
  destruct (Nat.ltb_spec 9 (length data)), (Z.ltb_spec 9 (Z.of_nat (length data)));
    try lia; [|repeat split].
  unfold read_extended, cRTagCANInfo, cRTagCPUInfo, cRTagRAMInfo,
    cRTagDiskInfo. cbv zeta. simpl Nat.add. simpl andb.
  destruct (Z.eqb_spec (byte_at data 9) 14) as [E|?];
    [try rewrite E; repeat split|].
  destruct (Z.eqb_spec (byte_at data 9) 5) as [E|?];
    [try rewrite E; repeat split|].
  destruct (Z.eqb_spec (byte_at data 9) 6) as [E|?];
    [try rewrite E; repeat split|].
  destruct (Z.eqb_spec (byte_at data 9) 4) as [E|?]; repeat split.
Qed.

(** X10: after an FMS datagram the enabled flag is bit 2 of its control
    byte; the control mode is autonomous when bit 1 is set (also when bit 0
    is set as well), test when only bit 0 of the two is set, and what it was
    when neither is set. *)
Theorem read_fms_packet_bits (st : DS) (data : list Z) :
  robot_enabled (cfg (snd (read_fms_packet st (Some data))))
  = Z.testbit (byte_at data 3) 2 /\
  control_mode (cfg (snd (read_fms_packet st (Some data))))
  = (if Z.testbit (byte_at data 3) 1 then DS_CONTROL_AUTONOMOUS
     else if Z.testbit (byte_at data 3) 0 then DS_CONTROL_TEST
     else control_mode (cfg st)).
Proof.
  rewrite <- (truth_land_bit (byte_at data 3) 2),
          <- (truth_land_bit (byte_at data 3) 1),
          <- (truth_land_bit (byte_at data 3) 0) by lia.
  split.
  - unfold read_fms_packet. cbv zeta. simpl snd.
    repeat match goal with
           | |- context [if ?b then _ else _] => destruct b
           end; reflexivity.
  - apply read_fms_packet_mode.
Qed.

(** ** The date block *)



(** ** The layout of a joystick block *)

Lemma axes_run js i n d p :
  snd (for_loop n (axes_body js i) (d, p)) = (p + n)%nat /\
  length (fst (for_loop n (axes_body js i) (d, p))) = length d /\
  (forall a, (a < n)%nat -> (p + a < length d)%nat ->
     fst (for_loop n (axes_body js i) (d, p)) !! (p + a)%nat
     = Some (axis_byte js i a)) /\
  (forall k, (k < p \/ p + n <= k)%nat ->
     fst (for_loop n (axes_body js i) (d, p)) !! k = d !! k).
Proof.
  induction n as [|n IH].
  - rewrite for_loop_0. simpl. repeat split; auto; intros; lia.
  - rewrite for_loop_S. destruct IH as (Hp & Hlen & Hin & Hout).
    destruct (for_loop n (axes_body js i) (d, p)) as [d1 p1].
    simpl in *. subst p1. repeat split.
    + lia.
    + rewrite length_insert. exact Hlen.
    + intros a Ha Hb. destruct (decide (a = n)) as [->|Hne].
      * apply list_lookup_insert_eq. lia.
      * rewrite list_lookup_insert_ne by lia. apply Hin; lia.
    + intros k Hk. rewrite list_lookup_insert_ne by lia. apply Hout. lia.
Qed.

Lemma hats_run js i n d p :
  snd (for_loop n (hats_body js i) (d, p)) = (p + 2 * n)%nat /\
  length (fst (for_loop n (hats_body js i) (d, p))) = length d /\
  (forall h, (h < n)%nat -> (p + 2 + 2 * h < length d)%nat ->
     fst (for_loop n (hats_body js i) (d, p)) !! (p + 1 + 2 * h)%nat
     = Some (hi_byte (DS_GetJoystickHat js i h)) /\
     fst (for_loop n (hats_body js i) (d, p)) !! (p + 2 + 2 * h)%nat
     = Some (lo_byte (DS_GetJoystickHat js i h))) /\
  (forall k, (k <= p \/ p + 2 * n < k)%nat ->
     fst (for_loop n (hats_body js i) (d, p)) !! k = d !! k).
Proof.
  induction n as [|n IH].
  - rewrite for_loop_0. simpl. repeat split; auto; intros; lia.
  - rewrite for_loop_S. destruct IH as (Hp & Hlen & Hin & Hout).
    destruct (for_loop n (hats_body js i) (d, p)) as [d1 p1].
    simpl in Hp, Hlen, Hin, Hout. subst p1.
    unfold hats_body. cbv zeta. simpl fst. simpl snd.
    split; [lia|]. split; [rewrite !length_insert; exact Hlen|]. split.
    + intros h Hh Hb. destruct (decide (h = n)) as [->|Hne].
      * split.
        -- rewrite list_lookup_insert_ne by lia.
           replace (p + 1 + 2 * n)%nat with (p + 2 * n + 1)%nat by lia.
           apply list_lookup_insert_eq. lia.
        -- replace (p + 2 + 2 * n)%nat with (p + 2 * n + 2)%nat by lia.
           apply list_lookup_insert_eq. rewrite length_insert. lia.
      * rewrite !list_lookup_insert_ne by lia. apply Hin; lia.
    + intros k Hk. rewrite !list_lookup_insert_ne by lia. apply Hout. lia.
Qed.

Lemma button_flags_is js i : is_uint8 (button_flags js i).
Proof.
  unfold button_flags. apply (for_loop_invariant is_uint8).
  - intros b s' _. apply to_uint8_is.
  - apply is_uint8_const. reflexivity.
Qed.

Lemma uint8_high_byte (z : Z) :
  is_uint8 z -> to_uint8 (Z.shiftr (Z.land z 0xff00) 8) = 0.
Proof.
  intros Hz. fold (hi_byte z). rewrite hi_byte_mod.
  unfold is_uint8 in Hz. rewrite Z.div_small by lia. reflexivity.
Qed.

Lemma uint8_low_byte (z : Z) :
  is_uint8 z -> to_uint8 (Z.land z 0xff) = z.
Proof.
  intros Hz. fold (lo_byte z). rewrite lo_byte_mod.
  unfold is_uint8 in Hz. apply Z.mod_small. lia.
Qed.

(** The bytes of one block, for a block that lies inside the datagram. *)
Lemma joystick_block_at js i d p :
  (p + block_extent js i <= length d)%nat ->
  let A := DS_GetJoystickNumAxes js i in
  let d' := fst (joystick_block js i (d, p)) in
  d' !! (p + 1)%nat = Some cTagJoystick /\
  (forall a, (a < A)%nat -> d' !! (p + 2 + a)%nat = Some (axis_byte js i a)) /\
  d' !! (p + 2 + A)%nat = d !! (p + 2 + A)%nat /\
  d' !! (p + 3 + A)%nat
  = Some (to_uint8 (Z.of_nat (DS_GetJoystickNumButtons js i))) /\
  d' !! (p + 4 + A)%nat = Some 0 /\
  d' !! (p + 5 + A)%nat = Some (button_flags js i) /\
  d' !! (p + 6 + A)%nat
  = Some (to_uint8 (Z.of_nat (DS_GetJoystickNumHats js i))) /\
  (forall h, (h < DS_GetJoystickNumHats js i)%nat ->
     d' !! (p + 7 + A + 2 * h)%nat = Some (hi_byte (DS_GetJoystickHat js i h)) /\
     d' !! (p + 8 + A + 2 * h)%nat = Some (lo_byte (DS_GetJoystickHat js i h))).
Proof.
  intros Hin A d'. unfold block_extent in Hin. fold A in Hin. subst d'.
  rewrite joystick_block_stages. cbv zeta. simpl fst.
  change (axes_loop js i) with (for_loop A (axes_body js i)).
  change (hats_loop js i)
    with (for_loop (DS_GetJoystickNumHats js i) (hats_body js i)).
  set (d1 := <[(p + 1)%nat := cTagJoystick]> (<[p := get_joystick_size js i]> d)).
  assert (Hl1 : length d1 = length d) by (unfold d1; rewrite !length_insert; reflexivity).
  destruct (axes_run js i A d1 (p + 2)) as (Hp2 & Hl2 & Hin2 & Hout2).
  destruct (for_loop A (axes_body js i) (d1, (p + 2)%nat)) as [d2 p2].
  simpl in Hp2, Hl2, Hin2, Hout2. simpl fst. simpl snd. subst p2.
  rewrite uint8_high_byte, uint8_low_byte by apply button_flags_is.
  match goal with
  | |- context [for_loop _ (hats_body js i) (?d3, ?p3)] =>
      set (d3' := d3);
      destruct (hats_run js i (DS_GetJoystickNumHats js i) d3' p3)
        as (Hp4 & Hl4 & Hin4 & Hout4)
  end.
  assert (Hl3 : length d3' = length d)
    by (unfold d3'; rewrite !length_insert; lia).
  destruct (for_loop (DS_GetJoystickNumHats js i) (hats_body js i) _) as [d4 p4].
  simpl in Hp4, Hl4, Hin4, Hout4. simpl fst.
  split.
  { rewrite Hout4 by lia. unfold d3'.
    rewrite !list_lookup_insert_ne by lia. rewrite Hout2 by lia.
    unfold d1. apply list_lookup_insert_eq. rewrite length_insert. lia. }
  split.
  { intros a Ha. rewrite Hout4 by lia. unfold d3'.
    rewrite !list_lookup_insert_ne by lia. apply Hin2; lia. }
  split.
  { rewrite Hout4 by lia. unfold d3'.
    rewrite !list_lookup_insert_ne by lia. rewrite Hout2 by lia.
    unfold d1. rewrite !list_lookup_insert_ne by lia. reflexivity. }
  split.
  { rewrite Hout4 by lia. unfold d3'.
    rewrite !list_lookup_insert_ne by lia.
    replace (p + 3 + A)%nat with (p + 2 + A + 1)%nat by lia.
    apply list_lookup_insert_eq. lia. }
  split.
  { rewrite Hout4 by lia. unfold d3'.
    rewrite !list_lookup_insert_ne by lia.
    replace (p + 4 + A)%nat with (p + 2 + A + 2)%nat by lia.
    apply list_lookup_insert_eq. rewrite !length_insert. lia. }
  split.
  { rewrite Hout4 by lia. unfold d3'.
    rewrite !list_lookup_insert_ne by lia.
    replace (p + 5 + A)%nat with (p + 2 + A + 3)%nat by lia.
    apply list_lookup_insert_eq. rewrite !length_insert. lia. }
  split.
  { rewrite Hout4 by lia. unfold d3'.
    replace (p + 6 + A)%nat with (p + 2 + A + 4)%nat by lia.
    apply list_lookup_insert_eq. rewrite !length_insert. lia. }
  intros h Hh.
  replace (p + 7 + A + 2 * h)%nat with (p + 2 + A + 4 + 1 + 2 * h)%nat by lia.
  replace (p + 8 + A + 2 * h)%nat with (p + 2 + A + 4 + 2 + 2 * h)%nat by lia.
  apply Hin4; lia.
Qed.

(** A block stores nothing at or after its end. *)
Lemma joystick_block_above js i d p k :
  (p + block_extent js i <= k)%nat ->
  fst (joystick_block js i (d, p)) !! k = d !! k.
Proof.
  unfold block_extent. intros Hk.
  rewrite joystick_block_stages. cbv zeta. simpl fst.
  change (axes_loop js i)
    with (for_loop (DS_GetJoystickNumAxes js i) (axes_body js i)).
  change (hats_loop js i)
    with (for_loop (DS_GetJoystickNumHats js i) (hats_body js i)).
  set (d1 := <[(p + 1)%nat := cTagJoystick]> (<[p := get_joystick_size js i]> d)).
  destruct (axes_run js i (DS_GetJoystickNumAxes js i) d1 (p + 2))
    as (Hp2 & _ & _ & Hout2).
  destruct (for_loop _ (axes_body js i) (d1, (p + 2)%nat)) as [d2 p2].
  simpl in Hp2, Hout2. simpl fst. simpl snd. subst p2.
  match goal with
  | |- context [for_loop _ (hats_body js i) (?d3, ?p3)] =>
      destruct (hats_run js i (DS_GetJoystickNumHats js i) d3 p3)
        as (_ & _ & _ & Hout4)
  end.
  rewrite Hout4 by lia. rewrite !list_lookup_insert_ne by lia.
  rewrite Hout2 by lia. unfold d1.
  rewrite !list_lookup_insert_ne by lia. reflexivity.
Qed.

Lemma blocks_above js n d offset k :
  (block_start js offset n <= k)%nat ->
  fst (for_loop n (joystick_block js) (d, offset)) !! k = d !! k.
Proof.
  induction n as [|n IH]; intros Hk.
  - reflexivity.
  - rewrite for_loop_S.
    pose proof (blocks_pos js n d offset) as Hpos.
    destruct (for_loop n (joystick_block js) (d, offset)) as [d1 p1].
    simpl in Hpos, IH. subst p1. simpl in Hk.
    rewrite joystick_block_above by lia. apply IH. lia.
Qed.

Lemma blocks_keep js n d offset i k :
  (i < n)%nat -> (k < block_start js offset (S i))%nat ->
  fst (for_loop n (joystick_block js) (d, offset)) !! k
  = fst (for_loop (S i) (joystick_block js) (d, offset)) !! k.
Proof.
  intros Hi Hk. induction n as [|n IH]; [lia|].
  destruct (decide (i = n)) as [->|Hne]; [reflexivity|].
  rewrite (for_loop_S n).
  pose proof (blocks_pos js n d offset) as Hpos.
  destruct (for_loop n (joystick_block js) (d, offset)) as [d1 p1] eqn:E.
  simpl in Hpos. subst p1.
  destruct (joystick_block_writes_above js n d1 (block_start js offset n))
    as (_ & _ & Hbelow).
  rewrite Hbelow.
  - apply IH. lia.
  - pose proof (block_start_mono js offset (S i) n). lia.
Qed.

(** X12: the bytes of the block of joystick i in the joystick payload, when
    every joystick size fits a byte.  With s the start of the block and A
    the number of axes: the joystick tag at s + 1, the axes from s + 2, the
    number of buttons at s + 3 + A, a zero byte at s + 4 + A, the button
    flags at s + 5 + A, the number of hats at s + 6 + A and the hats, high
    byte first, from s + 7 + A.  The byte at s + 2 + A, between the axes and
    the number of buttons, is the one of the reallocated block: no store
    reaches it. *)
Theorem joystick_payload_layout (js : DS_Joysticks) (data : list Z) (i : nat) :
  (forall j, (j < DS_GetJoystickCount js)%nat ->
     (7 + DS_GetJoystickNumAxes js j + 2 * DS_GetJoystickNumHats js j < 256)%nat) ->
  (i < DS_GetJoystickCount js)%nat ->
  let d0 := realloc data (Z.to_nat (sizeof_ptr + joystick_data_length js)) in
  let F := add_joystick_data js data 6 in
  let s := block_start js 6 i in
  let A := DS_GetJoystickNumAxes js i in
  F !! (s + 1)%nat = Some cTagJoystick /\
  (forall a, (a < A)%nat -> F !! (s + 2 + a)%nat = Some (axis_byte js i a)) /\
  F !! (s + 2 + A)%nat = d0 !! (s + 2 + A)%nat /\
  F !! (s + 3 + A)%nat
  = Some (to_uint8 (Z.of_nat (DS_GetJoystickNumButtons js i))) /\
  F !! (s + 4 + A)%nat = Some 0 /\
  F !! (s + 5 + A)%nat = Some (button_flags js i) /\
  F !! (s + 6 + A)%nat = Some (Z.of_nat (DS_GetJoystickNumHats js i)) /\
  (forall h, (h < DS_GetJoystickNumHats js i)%nat ->
     F !! (s + 7 + A + 2 * h)%nat = Some (hi_byte (DS_GetJoystickHat js i h)) /\
     F !! (s + 8 + A + 2 * h)%nat = Some (lo_byte (DS_GetJoystickHat js i h))).
Proof.
  intros Hfit Hi d0 F s A.
  assert (HF : forall k, (k < s + block_extent js i)%nat ->
            F !! k = fst (joystick_block js i
                            (fst (for_loop i (joystick_block js) (d0, 6%nat)), s))
                     !! k).
  { intros k Hk. unfold F, add_joystick_data, add_joystick_data_pos. fold d0.
    rewrite (blocks_keep js _ d0 6 i k Hi) by exact Hk.
    rewrite for_loop_S.
    pose proof (blocks_pos js i d0 6) as Hpos. fold s in Hpos.
    destruct (for_loop i (joystick_block js) (d0, 6%nat)) as [d1 p1].
    simpl in Hpos. subst p1. reflexivity. }
  destruct (blocks_writes_above js i d0 6%nat) as (_ & Hlen & _).
  assert (Hin : (s + block_extent js i
                 <= length (fst (for_loop i (joystick_block js) (d0, 6%nat))))%nat).
  { rewrite Hlen. unfold d0.
    rewrite length_realloc, joystick_data_length_sum by exact Hfit.
    pose proof (block_start_next js 0 i (DS_GetJoystickCount js) Hi).
    unfold s. rewrite block_start_offset. unfold sizeof_ptr. lia. }
  destruct (joystick_block_at js i _ s Hin)
    as (Htag & Hax & Hgap & Hnb & Hz & Hfl & Hnh & Hhat).
  fold A in Hax, Hgap, Hnb, Hz, Hfl, Hnh, Hhat.
  assert (HA : block_extent js i
               = (7 + A + 2 * DS_GetJoystickNumHats js i)%nat) by reflexivity.
  split; [rewrite HF by lia; exact Htag|].
  split; [intros a Ha; rewrite HF by lia; apply Hax, Ha|].
  split.
  { rewrite HF by lia. rewrite Hgap. apply blocks_above. unfold s. lia. }
  split; [rewrite HF by lia; exact Hnb|].
  split; [rewrite HF by lia; exact Hz|].
  split; [rewrite HF by lia; exact Hfl|].
  split.
  { rewrite HF by lia. rewrite Hnh. f_equal. apply Z.mod_small.
    specialize (Hfit i Hi). lia. }
  intros h Hh. rewrite !HF by lia. apply Hhat, Hh.
Qed.

Lemma joystick_payload_layout_witness :
  (forall j, (j < DS_GetJoystickCount js_pad)%nat ->
     (7 + DS_GetJoystickNumAxes js_pad j
      + 2 * DS_GetJoystickNumHats js_pad j < 256)%nat) /\
  (0 < DS_GetJoystickCount js_pad)%nat /\
  add_joystick_data js_pad (calloc 8) 6 !! 7%nat = Some cTagJoystick.
Proof.
  assert (Hfit : forall j, (j < DS_GetJoystickCount js_pad)%nat ->
     (7 + DS_GetJoystickNumAxes js_pad j
      + 2 * DS_GetJoystickNumHats js_pad j < 256)%nat).
  { intros j _. simpl. lia. }
  assert (Hi : (0 < DS_GetJoystickCount js_pad)%nat) by (simpl; lia).
  split; [exact Hfit|]. split; [exact Hi|].
  exact (proj1 (joystick_payload_layout js_pad (calloc 8) 0 Hfit Hi)).
Defined.

(** ** Buttons *)

Lemma button_flags_sum js i :
  button_flags js i
  = button_sum js i (DS_GetJoystickNumButtons js i) mod 256.
Proof.
  unfold button_flags.
  induction (DS_GetJoystickNumButtons js i) as [|n IH].
  - reflexivity.
  - rewrite for_loop_S, IH. simpl button_sum. unfold to_uint8.
    apply Zplus_mod_idemp_l.
Qed.

Lemma button_sum_bound js i n : 0 <= button_sum js i n < 2 ^ Z.of_nat n.
Proof.
  induction n as [|n IH].
  - simpl. lia.
  - simpl button_sum. rewrite Nat2Z.inj_succ, Z.pow_succ_r by lia.
    destruct (DS_GetJoystickButton js i n); lia.
Qed.

Lemma button_sum_high js i n :
  button_sum js i (8 + n) mod 256 = button_sum js i 8 mod 256.
Proof.
  induction n as [|n IH].
  - rewrite Nat.add_0_r. reflexivity.
  - replace (8 + S n)%nat with (S (8 + n)) by lia.
    cbn [button_sum]. destruct (DS_GetJoystickButton js i (8 + n)).
    + replace (2 ^ Z.of_nat (8 + n)) with (2 ^ Z.of_nat n * 256).
      * rewrite Z_mod_plus_full. exact IH.
      * rewrite Nat2Z.inj_add, Z.pow_add_r by lia.
        change (2 ^ Z.of_nat 8) with 256. lia.
    + rewrite Z.add_0_r. exact IH.
Qed.

(** X13: the button flags of a joystick are the sum of 2^b over its pressed
    buttons b below 8: buttons 8 and above are not reported, and the flags
    fit the low byte of the button field. *)
Theorem button_flags_low_eight (js : DS_Joysticks) (i : nat) :
  button_flags js i
  = button_sum js i (Nat.min (DS_GetJoystickNumButtons js i) 8) /\
  0 <= button_flags js i < 256.
Proof.
  split; [|apply button_flags_is].
  rewrite button_flags_sum.
  destruct (Nat.le_gt_cases (DS_GetJoystickNumButtons js i) 8) as [Hle|Hgt].
  - rewrite Nat.min_l by exact Hle.
    pose proof (button_sum_bound js i (DS_GetJoystickNumButtons js i)) as Hb.
    apply Z.mod_small. split; [lia|].
    apply Z.lt_le_trans with (1 := proj2 Hb).
    change 256 with (2 ^ 8). apply Z.pow_le_mono_r; lia.
  - rewrite Nat.min_r by lia.
    replace (DS_GetJoystickNumButtons js i)
      with (8 + (DS_GetJoystickNumButtons js i - 8))%nat by lia.
    rewrite button_sum_high.
    pose proof (button_sum_bound js i 8) as Hb.
    apply Z.mod_small. exact Hb.
Qed.

(** ** Size of the robot address *)

Lemma pretty_N_go_length_ge (x : N) (s : string) :
  (String.length s <= String.length (pretty_N_go x s))%nat.
Proof.
  revert s. induction (N.lt_wf_0 x) as [x _ IH]. intros s.
  destruct (decide (x = 0)%N) as [->|Hx].
  - rewrite pretty_N_go_0. lia.
  - rewrite pretty_N_go_step by lia.
    etransitivity; [|apply (IH (x / 10)%N); apply N.div_lt; lia].
    simpl. lia.
Qed.

Lemma pretty_N_go_length_step (x : N) (s : string) :
  (0 < x)%N ->
  String.length (pretty_N_go x s)
  = String.length (pretty_N_go (x / 10) (String "0"%char s)).
Proof.
  intros Hx. rewrite pretty_N_go_step by exact Hx.
  generalize (pretty_N_char (x mod 10)%N). intros c.
  assert (Hgen : forall y a b, String.length a = String.length b ->
            String.length (pretty_N_go y a) = String.length (pretty_N_go y b)).
  { intros y. induction (N.lt_wf_0 y) as [y _ IH]. intros a b Hab.
    destruct (decide (y = 0)%N) as [->|Hy].
    - rewrite !pretty_N_go_0. exact Hab.
    - rewrite (pretty_N_go_step y a), (pretty_N_go_step y b) by lia.
      apply (IH (y / 10)%N); [apply N.div_lt; lia | simpl; lia]. }
  apply Hgen. reflexivity.
Qed.

(** The decimal form of a positive number has at most three characters
    exactly when the number is below 1000. *)
Lemma pretty_N_go_length_3 (x : N) :
  (0 < x)%N ->
  (String.length (pretty_N_go x "") <= 3)%nat <-> (x < 1000)%N.
Proof.
  intros Hx.
  assert (H1 : (x / 10 = 0 <-> x < 10)%N) by (apply N.div_small_iff; lia).
  assert (H2 : (x / 10 / 10 = 0 <-> x < 100)%N)
    by (rewrite N.Div0.div_div; apply N.div_small_iff; lia).
  assert (H3 : (x / 10 / 10 / 10 = 0 <-> x < 1000)%N)
    by (rewrite !N.Div0.div_div; apply N.div_small_iff; lia).
  rewrite pretty_N_go_length_step by exact Hx.
  destruct (decide (x / 10 = 0)%N) as [E1|E1].
  { rewrite E1, pretty_N_go_0. simpl. apply H1 in E1. clear H1 H2 H3.
    split; intros _; lia. }
  rewrite pretty_N_go_length_step by (apply N.neq_0_lt_0; exact E1).
  destruct (decide (x / 10 / 10 = 0)%N) as [E2|E2].
  { rewrite E2, pretty_N_go_0. simpl. apply H2 in E2. clear H1 H2 H3 E1.
    split; intros _; lia. }
  rewrite pretty_N_go_length_step by (apply N.neq_0_lt_0; exact E2).
  destruct (decide (x / 10 / 10 / 10 = 0)%N) as [E3|E3].
  { rewrite E3, pretty_N_go_0. simpl. apply H3 in E3.
    split; intros _; [exact E3 | clear; lia]. }
  rewrite pretty_N_go_length_step by (apply N.neq_0_lt_0; exact E3).
  pose proof (pretty_N_go_length_ge (x / 10 / 10 / 10 / 10)
                (String "0"%char (String "0"%char (String "0"%char
                   (String "0"%char ""))))) as Hge.
  simpl in Hge.
  set (L := String.length (pretty_N_go (x / 10 / 10 / 10 / 10) _)) in *.
  clearbody L. split; intros H.
  - exfalso. clear -Hge H. lia.
  - exfalso. apply E3, H3, H.
Qed.

Lemma length_append (a b : string) :
  String.length (a +:+ b) = (String.length a + String.length b)%nat.
Proof. induction a as [|c a IH]; simpl; [reflexivity | rewrite IH; reflexivity]. Qed.

(** X14: for a team number that is not negative, the robot address with its
    terminator fits the 18 bytes that [robot_address] allocates exactly when
    the team number is below 1000; a four-digit team number needs 19. *)
Theorem robot_address_fits (c : Config) :
  0 <= team_number c ->
  (String.length (robot_address c) + 1 <= robot_address_size)%nat
  <-> team_number c < 1000.
Proof.
  intros Hteam. unfold robot_address, robot_address_size.
  rewrite !length_append. simpl String.length.
  destruct (team_number c) as [|t|t] eqn:E; [| |lia].
  - simpl. split; [lia|]. intros _. lia.
  - unfold pretty, pretty_Z, pretty_positive, pretty, pretty_N.
    destruct (decide (N.pos t = 0%N)) as [H0|_]; [discriminate|].
    pose proof (pretty_N_go_length_3 (N.pos t) eq_refl) as H3.
    split.
    + intros Hlen. assert (N.pos t < 1000)%N by (apply H3; lia). lia.
    + intros Hlt.
      assert (String.length (pretty_N_go (N.pos t) "") <= 3)%nat
        by (apply H3; lia). lia.
Qed.

Lemma robot_address_fits_witness :
  0 <= team_number cfg_golden /\
  ~ (String.length (robot_address cfg_golden) + 1 <= robot_address_size)%nat.
Proof.
  assert (H : 0 <= team_number cfg_golden) by (simpl; lia).
  split; [exact H|].
  intros Hfit. apply (proj1 (robot_address_fits cfg_golden H)) in Hfit.
  simpl in Hfit. lia.
Defined.

(** ** Restart requests and requests without communications *)
